(** * rusty-exception: Option and Result for Python, verified against their specification

    A shallow embedding of [exception/option_.py] and [exception/result.py].

    Python objects are modelled by the inductive [val].  Every instance of a
    class carries its object identity ([oid], what [id()] and [is] observe)
    next to its single slot; the library never assigns a slot after
    [__init__], so an instance is its identity together with its payload.
    Code runs in the monad [M]: it threads the interpreter state (the next
    free identity and the log of calls made to caller-supplied callables) and
    ends either by returning a value or with an exception in flight.

    Payloads range over [None], [bool], [int], [str], exception instances and
    the four wrapper classes; callables are kept apart from [val] (they are
    arguments of the combinators, never payloads).  Tracebacks and exception
    chaining ([__traceback__], [__context__]) are not modelled. *)

From Stdlib Require Import ZArith List String Ascii Bool Arith Lia DecimalString.
Import ListNotations.
Local Open Scope string_scope.

(** ** Exception classes *)

(** The part of the built-in exception hierarchy the library and its tests
    touch, closed under single-inheritance subclassing by user code. *)
Inductive exn_class : Type :=
| BaseException
| Exception
| KeyboardInterrupt
| SystemExit
| GeneratorExit
| ValueError
| TypeError
| NameError
| UnboundLocalError
| AttributeError
| LookupError
| KeyError
| IndexError
| RuntimeError
| RecursionError
| UserException (name : string) (base : exn_class).

Fixpoint exn_class_eqb (c d : exn_class) : bool :=
  match c, d with
  | BaseException, BaseException
  | Exception, Exception
  | KeyboardInterrupt, KeyboardInterrupt
  | SystemExit, SystemExit
  | GeneratorExit, GeneratorExit
  | ValueError, ValueError
  | TypeError, TypeError
  | NameError, NameError
  | UnboundLocalError, UnboundLocalError
  | AttributeError, AttributeError
  | LookupError, LookupError
  | KeyError, KeyError
  | IndexError, IndexError
  | RuntimeError, RuntimeError
  | RecursionError, RecursionError => true
  | UserException n b, UserException n' b' =>
      String.eqb n n' && exn_class_eqb b b'
  | _, _ => false
  end.

(** [cls.__mro__], without the final [object]. *)
Fixpoint mro (c : exn_class) : list exn_class :=
  match c with
  | BaseException => [BaseException]
  | Exception => [Exception; BaseException]
  | KeyboardInterrupt => [KeyboardInterrupt; BaseException]
  | SystemExit => [SystemExit; BaseException]
  | GeneratorExit => [GeneratorExit; BaseException]
  | ValueError => [ValueError; Exception; BaseException]
  | TypeError => [TypeError; Exception; BaseException]
  | NameError => [NameError; Exception; BaseException]
  | UnboundLocalError => [UnboundLocalError; NameError; Exception; BaseException]
  | AttributeError => [AttributeError; Exception; BaseException]
  | LookupError => [LookupError; Exception; BaseException]
  | KeyError => [KeyError; LookupError; Exception; BaseException]
  | IndexError => [IndexError; LookupError; Exception; BaseException]
  | RuntimeError => [RuntimeError; Exception; BaseException]
  | RecursionError => [RecursionError; RuntimeError; Exception; BaseException]
  | UserException _ base => c :: mro base
  end.

Definition issubclass (c d : exn_class) : bool :=
  existsb (exn_class_eqb d) (mro c).

Definition class_name (c : exn_class) : string :=
  match c with
  | BaseException => "BaseException"
  | Exception => "Exception"
  | KeyboardInterrupt => "KeyboardInterrupt"
  | SystemExit => "SystemExit"
  | GeneratorExit => "GeneratorExit"
  | ValueError => "ValueError"
  | TypeError => "TypeError"
  | NameError => "NameError"
  | UnboundLocalError => "UnboundLocalError"
  | AttributeError => "AttributeError"
  | LookupError => "LookupError"
  | KeyError => "KeyError"
  | IndexError => "IndexError"
  | RuntimeError => "RuntimeError"
  | RecursionError => "RecursionError"
  | UserException name _ => name
  end.

(** ** Values *)

Inductive val : Type :=
| PyNone
| PyBool (b : bool)
| PyInt (n : Z)
| PyStr (s : string)
| PyExc (e : exn)
| Inst_NONE (oid : nat)
| InstSome (oid : nat) (_value : val)
| InstOk (oid : nat) (_value : val)
| InstErr (oid : nat) (_err : val)
with exn : Type :=
| MkExn (oid : nat) (cls : exn_class) (args : list val).

Definition exn_oid (e : exn) : nat := let 'MkExn o _ _ := e in o.
Definition exn_cls (e : exn) : exn_class := let 'MkExn _ c _ := e in c.
Definition exn_args (e : exn) : list val := let 'MkExn _ _ a := e in a.

(** ** Interpreter state and the monad of Python code *)

Record call_event : Type := Called {
  callee : string;
  pos_args : list val;
  kw_args : list (string * val)
}.

Record state : Type := State {
  next_oid : nat;
  calls : list call_event
}.

Inductive outcome (A : Type) : Type :=
| Return (a : A)
| Raise (e : exn).
Arguments Return {A} a.
Arguments Raise {A} e.

Definition M (A : Type) : Type := state -> outcome A * state.

Definition ret {A} (a : A) : M A := fun s => (Return a, s).

Definition bind {A B} (m : M A) (k : A -> M B) : M B :=
  fun s =>
    match m s with
    | (Return a, s') => k a s'
    | (Raise e, s') => (Raise e, s')
    end.

Definition throw {A} (e : exn) : M A := fun s => (Raise e, s).

Declare Scope py_scope.
Delimit Scope py_scope with py.
Notation "x <- m ;; k" := (bind m (fun x => k))
  (at level 100, m at next level, right associativity) : py_scope.
Local Open Scope py_scope.

(** [object.__new__]: the next free identity. *)
Definition new_oid : M nat :=
  fun s => (Return (next_oid s), State (S (next_oid s)) (calls s)).

(** Instantiating an exception class with the given arguments. *)
Definition new_exn (cls : exn_class) (args : list val) : M exn :=
  o <- new_oid ;; ret (MkExn o cls args).

(** The [raise] statement.  Its operand must be an exception instance;
    anything else makes the interpreter raise [TypeError] instead. *)
Definition py_raise {A} (x : val) : M A :=
  match x with
  | PyExc e => throw e
  | _ =>
      e <- new_exn TypeError [PyStr "exceptions must derive from BaseException"] ;;
      throw e
  end.

(** [try: body / except exceptions as exc: handler(exc)].  The clause
    matches when the class of the exception in flight is a subclass of one of
    the listed classes; an exception that matches none stays in flight. *)
Definition exc_matches (e : exn) (exceptions : list exn_class) : bool :=
  existsb (issubclass (exn_cls e)) exceptions.

Definition try_except {A} (body : M A) (exceptions : list exn_class)
  (handler : exn -> M A) : M A :=
  fun s =>
    match body s with
    | (Return a, s') => (Return a, s')
    | (Raise e, s') =>
        if exc_matches e exceptions then handler e s' else (Raise e, s')
    end.

(** Caller-supplied callables: a name ([__name__]) and a body.  Calling one
    is recorded in the call log before its body runs. *)
Record callable : Type := Callable {
  fn_name : string;
  fn_body : list val -> list (string * val) -> M val
}.

Definition call (f : callable) (args : list val) (kwargs : list (string * val))
  : M val :=
  fun s =>
    fn_body f args kwargs
      (State (next_oid s) (calls s ++ [Called (fn_name f) args kwargs])).

(** Attribute lookup that finds nothing. *)
Definition no_attribute {A} (attr : string) : M A :=
  e <- new_exn AttributeError [PyStr ("object has no attribute '" ++ attr ++ "'")] ;;
  throw e.

(** ** The host language's [bool()], [==] and [repr()] on [val] *)

Definition isinstance__NONE (x : val) : bool :=
  match x with Inst_NONE _ => true | _ => false end.
Definition isinstance_Some (x : val) : bool :=
  match x with InstSome _ _ => true | _ => false end.
Definition isinstance_Ok (x : val) : bool :=
  match x with InstOk _ _ => true | _ => false end.
Definition isinstance_Err (x : val) : bool :=
  match x with InstErr _ _ => true | _ => false end.
Definition isinstance_Option (x : val) : bool :=
  isinstance__NONE x || isinstance_Some x.
Definition isinstance_Result (x : val) : bool :=
  isinstance_Ok x || isinstance_Err x.
Definition is_wrapper (x : val) : bool :=
  isinstance_Option x || isinstance_Result x.

(** Truth value of an object; none of the modelled classes defines
    [__bool__] or [__len__], so their instances are true. *)
Definition py_truthy (x : val) : bool :=
  match x with
  | PyNone => false
  | PyBool b => b
  | PyInt n => negb (n =? 0)%Z
  | PyStr s => negb (String.eqb s "")
  | _ => true
  end.

(** The [is] operator.  Scalars are compared by value (their identity is an
    interpreter detail); instances by [oid]. *)
Definition py_is (a b : val) : bool :=
  match a, b with
  | PyNone, PyNone => true
  | PyBool x, PyBool y => Bool.eqb x y
  | PyInt n, PyInt m => (n =? m)%Z
  | PyStr s, PyStr t => String.eqb s t
  | PyExc e, PyExc e' => Nat.eqb (exn_oid e) (exn_oid e')
  | Inst_NONE o, Inst_NONE o'
  | InstSome o _, InstSome o' _
  | InstOk o _, InstOk o' _
  | InstErr o _, InstErr o' _ => Nat.eqb o o'
  | _, _ => false
  end.

(** The [==] operator.  [bool] is a subclass of [int], so [True == 1];
    exception instances inherit [object.__eq__], which is identity (an
    exception class that defines its own [__eq__] is not modelled); the four
    wrapper classes define [__eq__] themselves:
    - [_NONE.__eq__(self, other)] is [isinstance(other, _NONE)];
    - [Some.__eq__], [Ok.__eq__] and [Err.__eq__] return [False] unless
      [other] is an instance of the same class, and then compare the two
      payloads with [==].
    When the left operand's [__eq__] answers [NotImplemented] (a scalar or an
    exception against a wrapper), the wrapper's reflected [__eq__] answers
    [False]. *)
Fixpoint py_eq (a b : val) : bool :=
  match a with
  | PyNone => match b with PyNone => true | _ => false end
  | PyBool x =>
      match b with
      | PyBool y => Bool.eqb x y
      | PyInt m => (Z.b2z x =? m)%Z
      | _ => false
      end
  | PyInt n =>
      match b with
      | PyInt m => (n =? m)%Z
      | PyBool y => (n =? Z.b2z y)%Z
      | _ => false
      end
  | PyStr s => match b with PyStr t => String.eqb s t | _ => false end
  | PyExc e => match b with PyExc e' => Nat.eqb (exn_oid e) (exn_oid e') | _ => false end
  | Inst_NONE _ => isinstance__NONE b
  | InstSome _ v => match b with InstSome _ w => py_eq v w | _ => false end
  | InstOk _ v => match b with InstOk _ w => py_eq v w | _ => false end
  | InstErr _ v => match b with InstErr _ w => py_eq v w | _ => false end
  end.

(** [!=] is the negation of [==] (the default [__ne__]). *)
Definition py_ne (a b : val) : bool := negb (py_eq a b).

(** [repr] of an [int]. *)
Definition repr_int (n : Z) : string :=
  DecimalString.NilZero.string_of_int (Z.to_int n).

Definition quote1 : ascii := ascii_of_nat 39.
Definition quote2 : ascii := ascii_of_nat 34.
Definition backslash : ascii := ascii_of_nat 92.

Definition hex_digit (n : nat) : ascii :=
  nth n (list_ascii_of_string "0123456789abcdef") "0"%char.

(** [repr] of a [str]: single quotes unless the text holds a single quote
    and no double quote; the quote in use and the backslash are escaped, and
    so are control characters.  Bytes above 127 are taken to spell printable
    characters and are copied. *)
Definition repr_char (quote c : ascii) : string :=
  let n := nat_of_ascii c in
  if Ascii.eqb c quote || Ascii.eqb c backslash then String backslash (String c "")
  else if Nat.eqb n 9 then String backslash "t"
  else if Nat.eqb n 10 then String backslash "n"
  else if Nat.eqb n 13 then String backslash "r"
  else if Nat.ltb n 32 || Nat.eqb n 127
       then String backslash
              (String "x" (String (hex_digit (n / 16)) (String (hex_digit (n mod 16)) "")))
  else String c "".

Definition str_contains (c : ascii) (s : string) : bool :=
  existsb (Ascii.eqb c) (list_ascii_of_string s).

Definition repr_str (s : string) : string :=
  let quote :=
    if str_contains quote1 s && negb (str_contains quote2 s)
    then quote2 else quote1 in
  String quote
    (String.concat "" (List.map (repr_char quote) (list_ascii_of_string s))
     ++ String quote "").

(** [repr].  [BaseException.__repr__] prints the class name and the
    arguments; the wrapper classes define
    - [_NONE.__repr__]: the text [None],
    - [Some.__repr__], [Ok.__repr__], [Err.__repr__]: the class name and
      the [repr] of the payload in parentheses. *)
Fixpoint py_repr (x : val) : string :=
  match x with
  | PyNone => "None"
  | PyBool b => if b then "True" else "False"
  | PyInt n => repr_int n
  | PyStr s => repr_str s
  | PyExc (MkExn _ cls args) =>
      class_name cls ++ "(" ++ String.concat ", " (List.map py_repr args) ++ ")"
  | Inst_NONE _ => "None"
  | InstSome _ v => "Some(" ++ py_repr v ++ ")"
  | InstOk _ v => "Ok(" ++ py_repr v ++ ")"
  | InstErr _ e => "Err(" ++ py_repr e ++ ")"
  end.

(** Reading the slots [_value] (of [Some] and [Ok]) and [_err] (of [Err]). *)
Definition get__value (self : val) : M val :=
  match self with
  | InstSome _ v | InstOk _ v => ret v
  | _ => no_attribute "_value"
  end.

Definition get__err (self : val) : M val :=
  match self with
  | InstErr _ e => ret e
  | _ => no_attribute "_err"
  end.

(** ** exception/option_.py *)

(** *** class _NONE *)

(** [_NONE()]: [__init__] does nothing and the class has no slots. *)
Definition _NONE_new : M val :=
  o <- new_oid ;; ret (Inst_NONE o).

(** The interpreter state in which the package is imported, and the
    module-level [NONE = _NONE()], the first object the package creates. *)
Definition initial_state : state := State 0 [].

Definition NONE : val :=
  Eval cbv in
    match _NONE_new initial_state with
    | (Return v, _) => v
    | (Raise _, _) => PyNone
    end.

Definition imported_state : state :=
  Eval cbv in snd (_NONE_new initial_state).

Definition _NONE___eq__ (self other : val) : M val :=
  ret (PyBool (isinstance__NONE other)).

Definition _NONE_is_some (self : val) : M val := ret (PyBool false).

Definition _NONE_is_none (self : val) : M val := ret (PyBool true).

Definition _NONE_unwrap (self : val) : M val :=
  e <- new_exn ValueError [PyStr "Trying to unwrap a NONE instance."] ;;
  py_raise (PyExc e).

Definition _NONE_unwrap_or (self default : val) : M val := ret default.

Definition _NONE_unwrap_or_else (self : val) (op : callable) : M val :=
  call op [] [].

Definition _NONE_map (self : val) (op : callable) : M val := ret NONE.

Definition _NONE_expect (self msg : val) : M val :=
  e <- new_exn ValueError [msg] ;;
  py_raise (PyExc e).

Definition _NONE___repr__ (self : val) : M val := ret (PyStr "None").

(** *** class Some *)

(** [Some(value)]. *)
Definition Some_new (value : val) : M val :=
  o <- new_oid ;; ret (InstSome o value).

Definition Some___eq__ (self other : val) : M val :=
  if isinstance_Some other then
    a <- get__value self ;;
    b <- get__value other ;;
    ret (PyBool (py_eq a b))
  else ret (PyBool false).

Definition Some_is_some (self : val) : M val := ret (PyBool true).

Definition Some_is_none (self : val) : M val := ret (PyBool false).

Definition Some_unwrap (self : val) : M val := get__value self.

Definition Some_unwrap_or (self default : val) : M val := get__value self.

(** [self] is a [Some], so [self.unwrap] is [Some.unwrap]. *)
Definition Some_unwrap_or_else (self : val) (op : callable) : M val :=
  Some_unwrap self.

Definition Some_map (self : val) (op : callable) : M val :=
  v <- Some_unwrap self ;;
  r <- call op [v] [] ;;
  Some_new r.

Definition Some_expect (self msg : val) : M val := get__value self.

Definition Some___repr__ (self : val) : M val :=
  v <- get__value self ;;
  ret (PyStr ("Some(" ++ py_repr v ++ ")")).

(** *** as_option *)

(** The decorator: [functools.wraps] gives the wrapper the name of [func];
    the wrapper hands its positional and keyword arguments to [func] and
    tests the result against [None] with [is].  The wrapper is library code:
    [fn_body (as_option func) args kwargs] runs it, and the call it makes to
    [func] is the one that is logged. *)
Definition as_option (func : callable) : callable :=
  Callable (fn_name func)
    (fun args kwargs =>
       result <- call func args kwargs ;;
       if py_is result PyNone then ret NONE else Some_new result).

(** ** exception/result.py *)

(** *** class Ok *)

Definition Ok_new (value : val) : M val :=
  o <- new_oid ;; ret (InstOk o value).

Definition Ok___eq__ (self other : val) : M val :=
  if isinstance_Ok other then
    a <- get__value self ;;
    b <- get__value other ;;
    ret (PyBool (py_eq a b))
  else ret (PyBool false).

Definition Ok_is_ok (self : val) : M val := ret (PyBool true).

Definition Ok_is_err (self : val) : M val := ret (PyBool false).

Definition Ok_ok (self : val) : M val :=
  v <- get__value self ;; Some_new v.

Definition Ok_err (self : val) : M val := ret NONE.

Definition Ok_unwrap (self : val) : M val := get__value self.

Definition Ok_unwrap_or (self default : val) : M val := Ok_unwrap self.

Definition Ok_unwrap_or_else (self : val) (op : callable) : M val :=
  Ok_unwrap self.

Definition Ok_expect (self msg : val) : M val := get__value self.

Definition Ok___repr__ (self : val) : M val :=
  v <- get__value self ;;
  ret (PyStr ("Ok(" ++ py_repr v ++ ")")).

(** *** class Err *)

Definition Err_new (err : val) : M val :=
  o <- new_oid ;; ret (InstErr o err).

Definition Err___eq__ (self other : val) : M val :=
  if isinstance_Err other then
    a <- get__err self ;;
    b <- get__err other ;;
    ret (PyBool (py_eq a b))
  else ret (PyBool false).

Definition Err_is_ok (self : val) : M val := ret (PyBool false).

Definition Err_is_err (self : val) : M val := ret (PyBool true).

Definition Err_ok (self : val) : M val := ret NONE.

Definition Err_err (self : val) : M val :=
  e <- get__err self ;; Some_new e.

Definition Err_unwrap (self : val) : M val :=
  e <- get__err self ;; py_raise e.

Definition Err_unwrap_or (self default : val) : M val := ret default.

Definition Err_unwrap_or_else (self : val) (op : callable) : M val :=
  e <- get__err self ;; call op [e] [].

Definition Err_expect (self msg : val) : M val :=
  e <- new_exn ValueError [msg] ;;
  py_raise (PyExc e).

Definition Err___repr__ (self : val) : M val :=
  e <- get__err self ;;
  ret (PyStr ("Err(" ++ py_repr e ++ ")")).

(** *** Method calls *)

(** [self.m(...)] looks [m] up in the class of [self]. *)
Definition is_some (self : val) : M val :=
  match self with
  | Inst_NONE _ => _NONE_is_some self
  | InstSome _ _ => Some_is_some self
  | _ => no_attribute "is_some"
  end.

Definition is_none (self : val) : M val :=
  match self with
  | Inst_NONE _ => _NONE_is_none self
  | InstSome _ _ => Some_is_none self
  | _ => no_attribute "is_none"
  end.

Definition map (self : val) (op : callable) : M val :=
  match self with
  | Inst_NONE _ => _NONE_map self op
  | InstSome _ _ => Some_map self op
  | _ => no_attribute "map"
  end.

Definition is_ok (self : val) : M val :=
  match self with
  | InstOk _ _ => Ok_is_ok self
  | InstErr _ _ => Err_is_ok self
  | _ => no_attribute "is_ok"
  end.

Definition is_err (self : val) : M val :=
  match self with
  | InstOk _ _ => Ok_is_err self
  | InstErr _ _ => Err_is_err self
  | _ => no_attribute "is_err"
  end.

Definition ok (self : val) : M val :=
  match self with
  | InstOk _ _ => Ok_ok self
  | InstErr _ _ => Err_ok self
  | _ => no_attribute "ok"
  end.

Definition err (self : val) : M val :=
  match self with
  | InstOk _ _ => Ok_err self
  | InstErr _ _ => Err_err self
  | _ => no_attribute "err"
  end.

Definition unwrap (self : val) : M val :=
  match self with
  | Inst_NONE _ => _NONE_unwrap self
  | InstSome _ _ => Some_unwrap self
  | InstOk _ _ => Ok_unwrap self
  | InstErr _ _ => Err_unwrap self
  | _ => no_attribute "unwrap"
  end.

Definition unwrap_or (self default : val) : M val :=
  match self with
  | Inst_NONE _ => _NONE_unwrap_or self default
  | InstSome _ _ => Some_unwrap_or self default
  | InstOk _ _ => Ok_unwrap_or self default
  | InstErr _ _ => Err_unwrap_or self default
  | _ => no_attribute "unwrap_or"
  end.

Definition unwrap_or_else (self : val) (op : callable) : M val :=
  match self with
  | Inst_NONE _ => _NONE_unwrap_or_else self op
  | InstSome _ _ => Some_unwrap_or_else self op
  | InstOk _ _ => Ok_unwrap_or_else self op
  | InstErr _ _ => Err_unwrap_or_else self op
  | _ => no_attribute "unwrap_or_else"
  end.

Definition expect (self msg : val) : M val :=
  match self with
  | Inst_NONE _ => _NONE_expect self msg
  | InstSome _ _ => Some_expect self msg
  | InstOk _ _ => Ok_expect self msg
  | InstErr _ _ => Err_expect self msg
  | _ => no_attribute "expect"
  end.

(** [self == other]: the wrapper classes answer with their own [__eq__];
    everything else is the interpreter's comparison. *)
Definition eq_ (self other : val) : M val :=
  match self with
  | Inst_NONE _ => _NONE___eq__ self other
  | InstSome _ _ => Some___eq__ self other
  | InstOk _ _ => Ok___eq__ self other
  | InstErr _ _ => Err___eq__ self other
  | _ => ret (PyBool (py_eq self other))
  end.

(** [repr(self)]. *)
Definition repr (self : val) : M val :=
  match self with
  | Inst_NONE _ => _NONE___repr__ self
  | InstSome _ _ => Some___repr__ self
  | InstOk _ _ => Ok___repr__ self
  | InstErr _ _ => Err___repr__ self
  | _ => ret (PyStr (py_repr self))
  end.

(** *** Methods of the abstract bases *)

(** The property [Option.value]. *)
Definition Option_value (self : val) : M val := unwrap self.

Definition value (self : val) : M val :=
  match self with
  | Inst_NONE _ | InstSome _ _ => Option_value self
  | _ => no_attribute "value"
  end.

Definition Result_map_error (self : val) (op : callable) : M val :=
  b <- is_err self ;;
  if py_truthy b then
    e <- err self ;;
    ne <- call op [e] [] ;;
    Err_new ne
  else ret self.

Definition map_error (self : val) (op : callable) : M val :=
  match self with
  | InstOk _ _ | InstErr _ _ => Result_map_error self op
  | _ => no_attribute "map_error"
  end.

(** *** as_result *)

(** The decorator factory: with no class given the tuple becomes
    [(Exception,)]; the wrapper runs [f] and the construction of [Ok] inside
    the [try]. *)
Definition as_result (exceptions : list exn_class) (f : callable) : callable :=
  let exceptions :=
    match exceptions with
    | [] => [Exception]
    | _ => exceptions
    end in
  Callable (fn_name f)
    (fun args kwargs =>
       try_except
         (value <- call f args kwargs ;; Ok_new value)
         exceptions
         (fun exc => Err_new (PyExc exc))).

(** ** The functions of the test suite *)

(** [sample_function] of [test_is_option]. *)
Definition test_option_sample : callable :=
  Callable "sample_function"
    (fun args _ =>
       match args with
       | [data] => ret (if py_eq data (PyStr "a") then PyInt 42 else PyNone)
       | _ => e <- new_exn TypeError [] ;; throw e
       end).

(** [alt_sample_function] of [test_is_result]; [raise C] instantiates [C]. *)
Definition test_result_alt_sample : callable :=
  Callable "alt_sample_function"
    (fun args _ =>
       match args with
       | [data] =>
           if py_eq data (PyStr "a") then ret (PyInt 42)
           else if py_eq data (PyStr "b") then e <- new_exn NameError [] ;; throw e
           else e <- new_exn AttributeError [] ;; throw e
       | _ => e <- new_exn TypeError [] ;; throw e
       end).

(** A function that is interrupted from the keyboard. *)
Definition interrupted : callable :=
  Callable "interrupted"
    (fun _ _ => e <- new_exn KeyboardInterrupt [] ;; throw e).

(** A function that calls [sys.exit(code)]. *)
Definition exits (code : Z) : callable :=
  Callable "exits"
    (fun _ _ => e <- new_exn SystemExit [PyInt code] ;; throw e).

(** A function that always raises [ValueError]. *)
Definition always_fails : callable :=
  Callable "always_fails"
    (fun _ _ => e <- new_exn ValueError [PyStr "boom"] ;; throw e).

(** [lambda x: x + 1] on integers. *)
Definition succ_fn : callable :=
  Callable "<lambda>"
    (fun args _ =>
       match args with
       | [PyInt n] => ret (PyInt (n + 1))
       | _ => e <- new_exn TypeError [] ;; throw e
       end).

(** [lambda _: NameError()]. *)
Definition to_name_error : callable :=
  Callable "<lambda>"
    (fun args _ =>
       match args with
       | [_] => e <- new_exn NameError [] ;; ret (PyExc e)
       | _ => e <- new_exn TypeError [] ;; throw e
       end).

(** [lambda *args, **kwargs: v]. *)
Definition const_fn (v : val) : callable :=
  Callable "<lambda>" (fun _ _ => ret v).

(** [lambda x: x]. *)
Definition id_fn : callable :=
  Callable "<lambda>"
    (fun args _ =>
       match args with
       | [x] => ret x
       | _ => e <- new_exn TypeError [] ;; throw e
       end).

(** [lambda opt: opt.unwrap()]. *)
Definition unwrap_fn : callable :=
  Callable "<lambda>"
    (fun args _ =>
       match args with
       | [opt] => unwrap opt
       | _ => e <- new_exn TypeError [] ;; throw e
       end).

(** A function that raises an instance of the class it is built with. *)
Definition raiser (cls : exn_class) : callable :=
  Callable "raiser" (fun _ _ => e <- new_exn cls [] ;; throw e).

(** ** Vocabulary of the specification *)

(** [type(x)]. *)
Inductive py_class : Type :=
| NoneType_cls
| bool_cls
| int_cls
| str_cls
| exn_cls_of (c : exn_class)
| _NONE_cls
| Some_cls
| Ok_cls
| Err_cls.

Definition py_type (x : val) : py_class :=
  match x with
  | PyNone => NoneType_cls
  | PyBool _ => bool_cls
  | PyInt _ => int_cls
  | PyStr _ => str_cls
  | PyExc e => exn_cls_of (exn_cls e)
  | Inst_NONE _ => _NONE_cls
  | InstSome _ _ => Some_cls
  | InstOk _ _ => Ok_cls
  | InstErr _ _ => Err_cls
  end.

(** A computation started in [s] ends normally / ends with an exception. *)
Definition returns {A} (m : M A) (s : state) : Prop :=
  exists a s', m s = (Return a, s').

Definition raises {A} (m : M A) (s : state) : Prop :=
  exists e s', m s = (Raise e, s').

(** The state after one allocation. *)
Definition allocated (s : state) : state :=
  State (S (next_oid s)) (calls s).

(** ** Basic facts *)

Lemma returns_not_raises {A} (m : M A) (s : state) :
  returns m s -> ~ raises m s.
Proof.
  intros (a & s1 & Ha) (e & s2 & He). rewrite Ha in He. discriminate He.
Qed.

Lemma bind_return {A B} (m : M A) (k : A -> M B) s a s' :
  m s = (Return a, s') -> bind m k s = k a s'.
Proof. intros H. unfold bind. rewrite H. reflexivity. Qed.

Lemma bind_raise {A B} (m : M A) (k : A -> M B) s e s' :
  m s = (Raise e, s') -> bind m k s = (Raise e, s').
Proof. intros H. unfold bind. rewrite H. reflexivity. Qed.

Lemma exn_class_eqb_refl (c : exn_class) : exn_class_eqb c c = true.
Proof.
  induction c; simpl; try reflexivity.
  rewrite String.eqb_refl, IHc. reflexivity.
Qed.

Lemma exn_class_eqb_eq (c d : exn_class) : exn_class_eqb c d = true <-> c = d.
Proof.
  split.
  - revert d. induction c; destruct d; simpl; intros H;
      try reflexivity; try discriminate H.
    apply andb_true_iff in H. destruct H as [Hn Hb].
    apply String.eqb_eq in Hn. apply IHc in Hb. subst. reflexivity.
  - intros ->. apply exn_class_eqb_refl.
Qed.

(** Every class is a subclass of itself and of [BaseException]. *)
Lemma issubclass_refl (c : exn_class) : issubclass c c = true.
Proof.
  unfold issubclass. destruct c; simpl; try reflexivity.
  rewrite String.eqb_refl, exn_class_eqb_refl. reflexivity.
Qed.

Lemma issubclass_BaseException (c : exn_class) :
  issubclass c BaseException = true.
Proof.
  unfold issubclass. induction c; simpl; try reflexivity. exact IHc.
Qed.

(** [except] with a tuple: some listed class is a base of the raised one. *)
Lemma exc_matches_spec (e : exn) (exceptions : list exn_class) :
  exc_matches e exceptions = true <->
  exists c, In c exceptions /\ issubclass (exn_cls e) c = true.
Proof. unfold exc_matches. apply existsb_exists. Qed.

Lemma exc_matches_false (e : exn) (exceptions : list exn_class) :
  (forall c, In c exceptions -> issubclass (exn_cls e) c = false) ->
  exc_matches e exceptions = false.
Proof.
  intros H. destruct (exc_matches e exceptions) eqn:E; [| reflexivity].
  apply exc_matches_spec in E. destruct E as (c & Hin & Hc).
  rewrite (H c Hin) in Hc. discriminate Hc.
Qed.

(** [==] is reflexive on every modelled value. *)
Lemma py_eq_refl (v : val) : py_eq v v = true.
Proof.
  induction v; simpl; auto.
  - apply Bool.eqb_reflx.
  - apply Z.eqb_refl.
  - apply String.eqb_refl.
  - apply Nat.eqb_refl.
Qed.

(** [x is None] holds of [None] only. *)
Lemma py_is_None (x : val) : py_is x PyNone = true <-> x = PyNone.
Proof. destruct x; simpl; split; intros H; try reflexivity; discriminate H. Qed.

(** The class methods [__eq__] and [__repr__] agree with [==] and [repr]. *)
Lemma eq__is_py_eq (a b : val) (s : state) :
  eq_ a b s = (Return (PyBool (py_eq a b)), s).
Proof. destruct a; try reflexivity; destruct b; reflexivity. Qed.

Lemma repr_is_py_repr (a : val) (s : state) :
  repr a s = (Return (PyStr (py_repr a)), s).
Proof. destruct a; reflexivity. Qed.

(** ** The test suite, replayed *)

Example test_option_equality :
  py_eq (InstSome 1 (PyStr "a")) (InstSome 2 (PyStr "a")) = true /\
  py_ne (InstSome 1 (PyStr "a")) (InstSome 2 (PyStr "b")) = true /\
  py_ne (InstSome 1 (PyStr "a")) (InstSome 2 (PyInt 2)) = true /\
  py_ne (InstSome 1 (PyStr "0")) (InstSome 2 (PyInt 0)) = true /\
  py_ne (InstSome 1 (PyStr "a")) NONE = true /\
  py_eq NONE NONE = true.
Proof. repeat split. Qed.

Example test_result_equality :
  let error := PyExc (MkExn 1 ValueError [PyStr "some error"]) in
  py_eq (InstErr 2 error) (InstErr 3 error) = true /\
  py_ne (InstErr 3 (PyExc (MkExn 1 ValueError [PyStr "some error"])))
        (InstErr 4 (PyExc (MkExn 2 ValueError [PyStr "some error"]))) = true /\
  py_ne (InstErr 2 error) (InstOk 3 (PyStr "a")) = true /\
  py_ne (InstOk 1 (PyStr "0")) (InstOk 2 (PyInt 0)) = true.
Proof. repeat split. Qed.

Example test_repr :
  py_repr (InstSome 1 (PyStr "a")) = "Some('a')" /\
  py_repr NONE = "None" /\
  py_repr (InstOk 1 (PyStr "a")) = "Ok('a')" /\
  py_repr (InstErr 2 (PyExc (MkExn 1 ValueError [PyStr "some error"])))
    = "Err(ValueError('some error'))".
Proof. repeat split. Qed.

Example test_map :
  exists o s',
    map (InstSome 1 (PyInt 5)) succ_fn (State 2 []) = (Return (InstSome o (PyInt 6)), s').
Proof. eexists. eexists. reflexivity. Qed.

Example test_is_option :
  (exists o s', fn_body (as_option test_option_sample) [PyStr "a"] [] imported_state
                = (Return (InstSome o (PyInt 42)), s')) /\
  (exists s', fn_body (as_option test_option_sample) [PyStr "b"] [] imported_state
              = (Return NONE, s')).
Proof. split; repeat eexists; reflexivity. Qed.

Example test_is_result :
  (exists o s', fn_body (as_result [NameError] test_result_alt_sample) [PyStr "a"] []
                  imported_state = (Return (InstOk o (PyInt 42)), s')) /\
  (exists o o' s', fn_body (as_result [NameError] test_result_alt_sample) [PyStr "b"] []
                  imported_state = (Return (InstErr o (PyExc (MkExn o' NameError []))), s')) /\
  (exists o s', fn_body (as_result [NameError] test_result_alt_sample) [PyStr "c"] []
                  imported_state = (Raise (MkExn o AttributeError []), s')).
Proof. repeat split; repeat eexists; reflexivity. Qed.

(** ** Unwrapping *)

(** C1. [unwrap] on [Err(e)] raises the held error object [e] itself: the
    exception in flight has the identity, class and arguments of [e], and no
    other exception object is created.  [unwrap] on [Ok(v)] returns [v]. *)
Theorem unwrap_reraises_held_error :
  forall (o : nat) (e : exn) (v : val) (s : state),
    unwrap (InstErr o (PyExc e)) s = (Raise e, s) /\
    unwrap (InstOk o v) s = (Return v, s).
Proof. intros o e v s. split; reflexivity. Qed.

(** [unwrap] on [_NONE] raises a new [ValueError]. *)
Lemma unwrap_NONE (o : nat) (s : state) :
  unwrap (Inst_NONE o) s =
    (Raise (MkExn (next_oid s) ValueError [PyStr "Trying to unwrap a NONE instance."]),
     allocated s).
Proof. reflexivity. Qed.

(** C5. [expect(m)] on [_NONE] and on [Err(e)] raises a new [ValueError]
    whose only argument is [m], whatever the receiver holds: the outcome for
    [Err(e)] does not mention [e].  On [Some(v)] and [Ok(v)] it returns [v]. *)
Theorem expect_raises_ValueError_with_message :
  forall (m : string) (o : nat) (e v : val) (s : state),
    expect (Inst_NONE o) (PyStr m) s
      = (Raise (MkExn (next_oid s) ValueError [PyStr m]), allocated s) /\
    expect (InstErr o e) (PyStr m) s
      = (Raise (MkExn (next_oid s) ValueError [PyStr m]), allocated s) /\
    expect (InstSome o v) (PyStr m) s = (Return v, s) /\
    expect (InstOk o v) (PyStr m) s = (Return v, s).
Proof. intros m o e v s. repeat split. Qed.

(** ** Mapping *)

(** C7. [Some(v).map(f)] is a [Some] holding what [f] returned on [v], and
    compares equal to every [Some] holding that result; [_NONE.map(f)]
    returns [NONE] and leaves the state, call log included, as it was,
    whatever [f] is. *)
Theorem map_Some_applies_map_NONE_skips :
  forall (o : nat) (v : val) (f : callable) (s : state),
    (forall r s',
       call f [v] [] s = (Return r, s') ->
       map (InstSome o v) f s = (Return (InstSome (next_oid s') r), allocated s') /\
       forall o', py_eq (InstSome (next_oid s') r) (InstSome o' r) = true) /\
    map (Inst_NONE o) f s = (Return NONE, s).
Proof.
  intros o v f s. split; [| reflexivity].
  intros r s' Hf. split.
  - simpl. unfold Some_map, Some_unwrap. simpl.
    change (bind (ret v) ?k s) with (k v s). cbv beta.
    rewrite (bind_return _ _ _ _ _ Hf). reflexivity.
  - intros o'. simpl. apply py_eq_refl.
Qed.

Lemma map_Some_applies_map_NONE_skips_witness :
  map (InstSome 1 (PyInt 5)) succ_fn (State 2 [])
    = (Return (InstSome 2 (PyInt 6)),
       State 3 [Called "<lambda>" [PyInt 5] []]) /\
  map (Inst_NONE 7) always_fails (State 8 []) = (Return NONE, State 8 []).
Proof.
  split.
  - apply (proj1 (map_Some_applies_map_NONE_skips 1 (PyInt 5) succ_fn (State 2 []))
             (PyInt 6) (State 2 [Called "<lambda>" [PyInt 5] []])).
    reflexivity.
  - apply (proj2 (map_Some_applies_map_NONE_skips 7 PyNone always_fails (State 8 []))).
Defined.

(** C3. [Ok(v).map_error(g)] returns the receiver itself and leaves the
    state, call log included, untouched, whatever [g] is.
    [Err(e).map_error(g)] calls [g] once, on a new [Some] holding [e]; when
    [g] returns [r] the result is a new [Err] holding [r], and when [g]
    raises, that exception leaves [map_error]. *)
Theorem map_error_Ok_identity_Err_transforms :
  forall (o : nat) (v e : val) (g : callable) (s : state),
    map_error (InstOk o v) g s = (Return (InstOk o v), s) /\
    (forall r s',
       call g [InstSome (next_oid s) e] [] (allocated s) = (Return r, s') ->
       map_error (InstErr o e) g s = (Return (InstErr (next_oid s') r), allocated s')) /\
    (forall x s',
       call g [InstSome (next_oid s) e] [] (allocated s) = (Raise x, s') ->
       map_error (InstErr o e) g s = (Raise x, s')).
Proof.
  intros o v e g s. split; [reflexivity |].
  assert (E : map_error (InstErr o e) g s
              = bind (call g [InstSome (next_oid s) e] []) Err_new (allocated s))
    by reflexivity.
  split; intros r s' Hg; rewrite E.
  - rewrite (bind_return _ _ _ _ _ Hg). reflexivity.
  - apply (bind_raise _ _ _ _ _ Hg).
Qed.

Lemma map_error_Ok_identity_Err_transforms_witness :
  map_error (InstOk 1 (PyStr "a")) always_fails (State 2 [])
    = (Return (InstOk 1 (PyStr "a")), State 2 []) /\
  map_error (InstErr 5 (PyExc (MkExn 4 TypeError []))) to_name_error (State 6 [])
    = (Return (InstErr 8 (PyExc (MkExn 7 NameError []))),
       State 9 [Called "<lambda>" [InstSome 6 (PyExc (MkExn 4 TypeError []))] []]) /\
  map_error (InstErr 5 (PyExc (MkExn 4 TypeError []))) always_fails (State 6 [])
    = (Raise (MkExn 7 ValueError [PyStr "boom"]),
       State 8 [Called "always_fails" [InstSome 6 (PyExc (MkExn 4 TypeError []))] []]).
Proof.
  pose proof (map_error_Ok_identity_Err_transforms 1 (PyStr "a") PyNone
                always_fails (State 2 [])) as H1.
  pose proof (map_error_Ok_identity_Err_transforms 5 PyNone
                (PyExc (MkExn 4 TypeError [])) to_name_error (State 6 [])) as H2.
  pose proof (map_error_Ok_identity_Err_transforms 5 PyNone
                (PyExc (MkExn 4 TypeError [])) always_fails (State 6 [])) as H3.
  split; [exact (proj1 H1) |].
  split.
  - apply (proj1 (proj2 H2) (PyExc (MkExn 7 NameError []))
             (State 8 [Called "<lambda>" [InstSome 6 (PyExc (MkExn 4 TypeError []))] []])).
    reflexivity.
  - apply (proj2 (proj2 H3) (MkExn 7 ValueError [PyStr "boom"])
             (State 8 [Called "always_fails" [InstSome 6 (PyExc (MkExn 4 TypeError []))] []])).
    reflexivity.
Defined.

(** ** The adapters *)

(** C8. The wrapper made by [as_option] calls [f] with the arguments it
    was given; when [f] returns [None] the wrapper returns [NONE], and when
    [f] returns anything else the wrapper returns a new [Some] holding it. *)
Theorem as_option_wraps_result :
  forall (f : callable) (args : list val) (kwargs : list (string * val))
         (s : state) (r : val) (s' : state),
    call f args kwargs s = (Return r, s') ->
    (r = PyNone ->
       fn_body (as_option f) args kwargs s = (Return NONE, s')) /\
    (r <> PyNone ->
       fn_body (as_option f) args kwargs s
         = (Return (InstSome (next_oid s') r), allocated s')).
Proof.
  intros f args kwargs s r s' Hf.
  assert (E : fn_body (as_option f) args kwargs s
              = if py_is r PyNone then (Return NONE, s') else Some_new r s').
  { simpl. rewrite (bind_return _ _ _ _ _ Hf).
    destruct (py_is r PyNone); reflexivity. }
  split; intros Hr; rewrite E.
  - subst r. reflexivity.
  - destruct (py_is r PyNone) eqn:Eis; [| reflexivity].
    apply py_is_None in Eis. contradiction.
Qed.

Lemma as_option_wraps_result_witness :
  fn_body (as_option test_option_sample) [PyStr "b"] [] imported_state
    = (Return NONE, State 1 [Called "sample_function" [PyStr "b"] []]) /\
  fn_body (as_option test_option_sample) [PyStr "a"] [] imported_state
    = (Return (InstSome 1 (PyInt 42)),
       State 2 [Called "sample_function" [PyStr "a"] []]).
Proof.
  split.
  - apply (proj1 (as_option_wraps_result test_option_sample [PyStr "b"] []
                    imported_state PyNone
                    (State 1 [Called "sample_function" [PyStr "b"] []])
                    eq_refl)).
    reflexivity.
  - apply (proj2 (as_option_wraps_result test_option_sample [PyStr "a"] []
                    imported_state (PyInt 42)
                    (State 1 [Called "sample_function" [PyStr "a"] []])
                    eq_refl)).
    discriminate.
Defined.

(** A failure of [f] leaves the wrapper of [as_option] as it is. *)
Lemma as_option_propagates (f : callable) args kwargs s e s' :
  call f args kwargs s = (Raise e, s') ->
  fn_body (as_option f) args kwargs s = (Raise e, s').
Proof. intros Hf. simpl. apply (bind_raise _ _ _ _ _ Hf). Qed.

(** C9. [NONE] is the one [_NONE] instance made when the package is
    imported.  [_NONE.map], [Ok.err], [Err.ok] and the absent path of the
    [as_option] wrapper all return that very instance and allocate nothing:
    the first three leave the state as they found it, and the wrapper leaves
    it as [f] left it. *)
Theorem NONE_is_shared_singleton :
  forall (o : nat) (v : val) (op f : callable)
         (args : list val) (kwargs : list (string * val)) (s s' : state),
    _NONE_new initial_state = (Return NONE, imported_state) /\
    map (Inst_NONE o) op s = (Return NONE, s) /\
    err (InstOk o v) s = (Return NONE, s) /\
    ok (InstErr o v) s = (Return NONE, s) /\
    (call f args kwargs s = (Return PyNone, s') ->
     fn_body (as_option f) args kwargs s = (Return NONE, s')).
Proof.
  intros o v op f args kwargs s s'.
  repeat split.
  intros Hf. simpl. rewrite (bind_return _ _ _ _ _ Hf). reflexivity.
Qed.

Lemma NONE_is_shared_singleton_witness :
  fn_body (as_option test_option_sample) [PyStr "z"] [] (State 9 [])
    = (Return NONE, State 9 [Called "sample_function" [PyStr "z"] []]).
Proof.
  apply (proj2 (proj2 (proj2 (proj2
           (NONE_is_shared_singleton 0 PyNone test_option_sample test_option_sample
              [PyStr "z"] [] (State 9 [])
              (State 9 [Called "sample_function" [PyStr "z"] []])))))).
  reflexivity.
Defined.

(** The tuple of classes the wrapper of [as_result] catches. *)
Lemma as_result_default (f : callable) :
  as_result [] f = as_result [Exception] f.
Proof. reflexivity. Qed.

Lemma as_result_run (exceptions : list exn_class) (f : callable) args kwargs s :
  exceptions <> [] ->
  fn_body (as_result exceptions f) args kwargs s
    = try_except (value <- call f args kwargs ;; Ok_new value) exceptions
        (fun exc => Err_new (PyExc exc)) s.
Proof. intros Hne. destruct exceptions; [contradiction | reflexivity]. Qed.

Lemma as_result_returns (exceptions : list exn_class) (f : callable) args kwargs s r s' :
  call f args kwargs s = (Return r, s') ->
  fn_body (as_result exceptions f) args kwargs s
    = (Return (InstOk (next_oid s') r), allocated s').
Proof.
  intros Hf.
  destruct exceptions; simpl; unfold try_except;
    rewrite (bind_return _ _ _ _ _ Hf); reflexivity.
Qed.

Lemma as_result_raises (exceptions : list exn_class) (f : callable) args kwargs s e s' :
  exceptions <> [] ->
  call f args kwargs s = (Raise e, s') ->
  fn_body (as_result exceptions f) args kwargs s
    = if exc_matches e exceptions
      then (Return (InstErr (next_oid s') (PyExc e)), allocated s')
      else (Raise e, s').
Proof.
  intros Hne Hf. rewrite (as_result_run _ _ _ _ _ Hne).
  unfold try_except. rewrite (bind_raise _ _ _ _ _ Hf).
  destruct (exc_matches e exceptions); reflexivity.
Qed.

Lemma exc_matches_Exception (e : exn) :
  exc_matches e [Exception] = issubclass (exn_cls e) Exception.
Proof. unfold exc_matches. simpl. apply orb_false_r. Qed.

(** C2, as amended.  For every [f] and every tuple of classes given to
    [as_result]: a call of [f] that returns [r] makes the wrapper return a
    new [Ok] holding [r]; a call that raises an exception whose class is a
    subclass of a listed class makes it return a new [Err] holding that very
    exception; a call that raises an exception matching none of a non-empty
    tuple leaves the wrapper with that exception in flight; and with no class
    given the tuple is [(Exception,)], so every exception whose class derives
    from [Exception] is caught. *)
Theorem as_result_catches_selected :
  forall (exceptions : list exn_class) (f : callable)
         (args : list val) (kwargs : list (string * val)) (s : state),
    (forall r s',
       call f args kwargs s = (Return r, s') ->
       fn_body (as_result exceptions f) args kwargs s
         = (Return (InstOk (next_oid s') r), allocated s')) /\
    (forall e s',
       call f args kwargs s = (Raise e, s') ->
       (exists c, In c exceptions /\ issubclass (exn_cls e) c = true) ->
       fn_body (as_result exceptions f) args kwargs s
         = (Return (InstErr (next_oid s') (PyExc e)), allocated s')) /\
    (forall e s',
       call f args kwargs s = (Raise e, s') ->
       exceptions <> [] ->
       (forall c, In c exceptions -> issubclass (exn_cls e) c = false) ->
       fn_body (as_result exceptions f) args kwargs s = (Raise e, s')) /\
    (forall e s',
       call f args kwargs s = (Raise e, s') ->
       exceptions = [] ->
       issubclass (exn_cls e) Exception = true ->
       fn_body (as_result exceptions f) args kwargs s
         = (Return (InstErr (next_oid s') (PyExc e)), allocated s')) /\
    as_result [] f = as_result [Exception] f.
Proof.
  intros exceptions f args kwargs s.
  split; [| split; [| split; [| split]]].
  - intros r s' Hf. apply as_result_returns. exact Hf.
  - intros e s' Hf Hsel.
    assert (Hne : exceptions <> []).
    { destruct Hsel as (c & Hin & _). intros ->. exact Hin. }
    rewrite (as_result_raises _ _ _ _ _ _ _ Hne Hf).
    apply exc_matches_spec in Hsel. rewrite Hsel. reflexivity.
  - intros e s' Hf Hne Hnone.
    rewrite (as_result_raises _ _ _ _ _ _ _ Hne Hf).
    rewrite (exc_matches_false _ _ Hnone). reflexivity.
  - intros e s' Hf -> Hsub.
    rewrite as_result_default.
    rewrite (as_result_raises [Exception] f args kwargs s e s'
               ltac:(discriminate) Hf).
    rewrite exc_matches_Exception, Hsub. reflexivity.
  - reflexivity.
Qed.

Lemma as_result_catches_selected_witness :
  fn_body (as_result [NameError] test_result_alt_sample) [PyStr "a"] [] imported_state
    = (Return (InstOk 1 (PyInt 42)),
       State 2 [Called "alt_sample_function" [PyStr "a"] []]) /\
  fn_body (as_result [NameError] test_result_alt_sample) [PyStr "b"] [] imported_state
    = (Return (InstErr 2 (PyExc (MkExn 1 NameError []))),
       State 3 [Called "alt_sample_function" [PyStr "b"] []]) /\
  fn_body (as_result [NameError] test_result_alt_sample) [PyStr "c"] [] imported_state
    = (Raise (MkExn 1 AttributeError []),
       State 2 [Called "alt_sample_function" [PyStr "c"] []]) /\
  fn_body (as_result [] always_fails) [] [] imported_state
    = (Return (InstErr 2 (PyExc (MkExn 1 ValueError [PyStr "boom"]))),
       State 3 [Called "always_fails" [] []]).
Proof.
  pose proof (as_result_catches_selected [NameError] test_result_alt_sample
                [PyStr "a"] [] imported_state) as Ha.
  pose proof (as_result_catches_selected [NameError] test_result_alt_sample
                [PyStr "b"] [] imported_state) as Hb.
  pose proof (as_result_catches_selected [NameError] test_result_alt_sample
                [PyStr "c"] [] imported_state) as Hc.
  pose proof (as_result_catches_selected [] always_fails
                [] [] imported_state) as Hd.
  split; [| split; [| split]].
  - apply (proj1 Ha (PyInt 42)
             (State 1 [Called "alt_sample_function" [PyStr "a"] []])).
    reflexivity.
  - apply (proj1 (proj2 Hb) (MkExn 1 NameError [])
             (State 2 [Called "alt_sample_function" [PyStr "b"] []])).
    + reflexivity.
    + exists NameError. split; [left; reflexivity | reflexivity].
  - apply (proj1 (proj2 (proj2 Hc)) (MkExn 1 AttributeError [])
             (State 2 [Called "alt_sample_function" [PyStr "c"] []])).
    + reflexivity.
    + discriminate.
    + intros c [<- | []]. reflexivity.
  - apply (proj1 (proj2 (proj2 (proj2 Hd))) (MkExn 1 ValueError [PyStr "boom"])
             (State 2 [Called "always_fails" [] []])).
    + reflexivity.
    + reflexivity.
    + reflexivity.
Defined.

(** C2 as stated fails: with no class given, a [KeyboardInterrupt] raised
    by the wrapped function is not turned into an [Err]; the wrapper ends
    with that exception in flight. *)
Lemma as_result_default_misses_KeyboardInterrupt :
  call interrupted [] [] imported_state
    = (Raise (MkExn 1 KeyboardInterrupt []), State 2 [Called "interrupted" [] []]) /\
  fn_body (as_result [] interrupted) [] [] imported_state
    = (Raise (MkExn 1 KeyboardInterrupt []), State 2 [Called "interrupted" [] []]) /\
  ~ returns (fn_body (as_result [] interrupted) [] []) imported_state.
Proof.
  split; [reflexivity | split; [reflexivity |]].
  intros (a & s'' & H). discriminate H.
Qed.

(** C10. With no class given the wrapper of [as_result] catches
    [Exception] and nothing wider: an exception whose class does not derive
    from [Exception] leaves the wrapper in flight.  [KeyboardInterrupt] and
    [SystemExit] are such classes: they derive from [BaseException] and not
    from [Exception]. *)
Theorem as_result_default_is_Exception_only :
  forall (f : callable) (args : list val) (kwargs : list (string * val))
         (s : state) (e : exn) (s' : state),
    call f args kwargs s = (Raise e, s') ->
    issubclass (exn_cls e) Exception = false ->
    fn_body (as_result [] f) args kwargs s = (Raise e, s') /\
    as_result [] f = as_result [Exception] f /\
    issubclass KeyboardInterrupt Exception = false /\
    issubclass SystemExit Exception = false /\
    issubclass KeyboardInterrupt BaseException = true /\
    issubclass SystemExit BaseException = true.
Proof.
  intros f args kwargs s e s' Hf Hsub.
  split; [| repeat split].
  rewrite as_result_default.
  rewrite (as_result_raises [Exception] f args kwargs s e s'
             ltac:(discriminate) Hf).
  rewrite exc_matches_Exception, Hsub. reflexivity.
Qed.

Lemma as_result_default_is_Exception_only_witness :
  fn_body (as_result [] interrupted) [] [] imported_state
    = (Raise (MkExn 1 KeyboardInterrupt []), State 2 [Called "interrupted" [] []]) /\
  fn_body (as_result [] (exits 3)) [] [] imported_state
    = (Raise (MkExn 1 SystemExit [PyInt 3]), State 2 [Called "exits" [] []]).
Proof.
  split.
  - apply (as_result_default_is_Exception_only interrupted [] [] imported_state
             (MkExn 1 KeyboardInterrupt []) (State 2 [Called "interrupted" [] []])
             eq_refl eq_refl).
  - apply (as_result_default_is_Exception_only (exits 3) [] [] imported_state
             (MkExn 1 SystemExit [PyInt 3]) (State 2 [Called "exits" [] []])
             eq_refl eq_refl).
Defined.

(** ** Equality *)

(** C6. [==] with a wrapper on the left never raises and has no effect.
    Two [Some] (two [Ok], two [Err]) are equal exactly when their payloads
    are equal under [==]; a wrapper and a value of another class are
    unequal, whichever side the wrapper is on; [NONE == NONE]. *)
Theorem wrapper_equality_total :
  forall (a b : val) (s : state),
    is_wrapper a = true ->
    returns (eq_ a b) s /\
    (forall o o' v w,
       eq_ (InstSome o v) (InstSome o' w) s = (Return (PyBool (py_eq v w)), s) /\
       eq_ (InstOk o v) (InstOk o' w) s = (Return (PyBool (py_eq v w)), s) /\
       eq_ (InstErr o v) (InstErr o' w) s = (Return (PyBool (py_eq v w)), s)) /\
    (py_type a <> py_type b ->
       eq_ a b s = (Return (PyBool false), s) /\
       eq_ b a s = (Return (PyBool false), s)) /\
    eq_ NONE NONE s = (Return (PyBool true), s).
Proof.
  intros a b s Ha.
  split; [| split; [| split]].
  - exists (PyBool (py_eq a b)), s. apply eq__is_py_eq.
  - intros o o' v w. repeat split.
  - intros Hty.
    destruct a; try discriminate Ha; destruct b;
      try (split; reflexivity); exfalso; apply Hty; reflexivity.
  - reflexivity.
Qed.

Lemma wrapper_equality_total_witness :
  eq_ (InstSome 1 (PyStr "0")) NONE imported_state
    = (Return (PyBool false), imported_state) /\
  eq_ NONE (InstSome 1 (PyStr "0")) imported_state
    = (Return (PyBool false), imported_state).
Proof.
  apply (proj1 (proj2 (proj2
           (wrapper_equality_total (InstSome 1 (PyStr "0")) NONE imported_state
              eq_refl)))).
  discriminate.
Defined.

(** ** Which operations can fail *)

Lemma returns_ret {A} (a : A) (s : state) : returns (ret a) s.
Proof. exists a, s. reflexivity. Qed.

Lemma returns_bind {A B} (m : M A) (k : A -> M B) (s : state) :
  returns m s ->
  (forall a s', returns (k a) s') ->
  returns (bind m k) s.
Proof.
  intros (a & s' & Hm) Hk.
  destruct (Hk a s') as (b & s'' & Hb).
  exists b, s''. rewrite (bind_return _ _ _ _ _ Hm). exact Hb.
Qed.

Lemma returns_new (mk : nat -> val) (s : state) :
  returns (o <- new_oid ;; ret (mk o)) s.
Proof. exists (mk (next_oid s)), (allocated s). reflexivity. Qed.

(** C4. On an [Option] and on a [Result], every operation other than
    [unwrap], [value] and [expect] returns normally: the queries, the
    conversions, [unwrap_or], [==] and [repr] always, the combinators that
    do not call their callable ([map] on [_NONE], [unwrap_or_else] on [Some]
    and [Ok], [map_error] on [Ok]) for every callable, and the combinators
    that call it as soon as the one call they make returns normally:
    [op()] for [unwrap_or_else] on [_NONE], [op(v)] for [map] on [Some(v)],
    [op(e)] for [unwrap_or_else] on [Err(e)] and [op(Some(e))] for
    [map_error] on [Err(e)].  [unwrap], [value] and [expect] raise on
    [_NONE], and [unwrap] and [expect] raise on [Err]. *)
Theorem only_unwrap_value_expect_fail :
  forall (o : nat) (v e other default msg : val) (op : callable) (s : state),
    (returns (is_some (Inst_NONE o)) s /\ returns (is_none (Inst_NONE o)) s /\
     returns (unwrap_or (Inst_NONE o) default) s /\
     returns (map (Inst_NONE o) op) s /\
     returns (eq_ (Inst_NONE o) other) s /\ returns (repr (Inst_NONE o)) s /\
     (returns (call op [] []) s ->
      returns (unwrap_or_else (Inst_NONE o) op) s)) /\
    (returns (is_some (InstSome o v)) s /\ returns (is_none (InstSome o v)) s /\
     returns (unwrap_or (InstSome o v) default) s /\
     returns (unwrap_or_else (InstSome o v) op) s /\
     returns (eq_ (InstSome o v) other) s /\ returns (repr (InstSome o v)) s /\
     (returns (call op [v] []) s ->
      returns (map (InstSome o v) op) s)) /\
    (returns (is_ok (InstOk o v)) s /\ returns (is_err (InstOk o v)) s /\
     returns (ok (InstOk o v)) s /\ returns (err (InstOk o v)) s /\
     returns (unwrap_or (InstOk o v) default) s /\
     returns (unwrap_or_else (InstOk o v) op) s /\
     returns (map_error (InstOk o v) op) s /\
     returns (eq_ (InstOk o v) other) s /\ returns (repr (InstOk o v)) s) /\
    (returns (is_ok (InstErr o e)) s /\ returns (is_err (InstErr o e)) s /\
     returns (ok (InstErr o e)) s /\ returns (err (InstErr o e)) s /\
     returns (unwrap_or (InstErr o e) default) s /\
     returns (eq_ (InstErr o e) other) s /\ returns (repr (InstErr o e)) s /\
     (returns (call op [e] []) s ->
      returns (unwrap_or_else (InstErr o e) op) s) /\
     (returns (call op [InstSome (next_oid s) e] []) (allocated s) ->
      returns (map_error (InstErr o e) op) s)) /\
    (raises (unwrap (Inst_NONE o)) s /\ raises (value (Inst_NONE o)) s /\
     raises (expect (Inst_NONE o) msg) s) /\
    (raises (unwrap (InstErr o e)) s /\ raises (expect (InstErr o e) msg) s).
Proof.
  intros o v e other default msg op s.
  assert (Heq : forall a, returns (eq_ a other) s)
    by (intros a; exists (PyBool (py_eq a other)), s; apply eq__is_py_eq).
  assert (Hrepr : forall a, returns (repr a) s)
    by (intros a; exists (PyStr (py_repr a)), s; apply repr_is_py_repr).
  split; [| split; [| split; [| split; [| split]]]].
  - (* _NONE *)
    split; [apply returns_ret |]. split; [apply returns_ret |].
    split; [apply returns_ret |]. split; [apply returns_ret |].
    split; [apply Heq |]. split; [apply Hrepr |].
    intros Hop. exact Hop.
  - (* Some *)
    split; [apply returns_ret |]. split; [apply returns_ret |].
    split; [apply returns_ret |]. split; [apply returns_ret |].
    split; [apply Heq |]. split; [apply Hrepr |].
    intros Hop.
    apply (returns_bind (call op [v] []) Some_new); [exact Hop |].
    intros a s'. apply (returns_new (fun n => InstSome n a)).
  - (* Ok *)
    split; [apply returns_ret |]. split; [apply returns_ret |].
    split; [apply (returns_new (fun n => InstSome n v)) |].
    split; [apply returns_ret |]. split; [apply returns_ret |].
    split; [apply returns_ret |]. split; [apply returns_ret |].
    split; [apply Heq | apply Hrepr].
  - (* Err *)
    split; [apply returns_ret |]. split; [apply returns_ret |].
    split; [apply returns_ret |].
    split; [apply (returns_new (fun n => InstSome n e)) |].
    split; [apply returns_ret |].
    split; [apply Heq |]. split; [apply Hrepr |].
    split.
    + intros Hop. exact Hop.
    + intros Hop.
      change (returns (bind (call op [InstSome (next_oid s) e] []) Err_new)
                (allocated s)).
      apply returns_bind; [exact Hop |].
      intros a s'. apply (returns_new (fun n => InstErr n a)).
  - (* the accessors on _NONE *)
    split; [| split]; eexists; eexists; reflexivity.
  - (* the accessors on Err *)
    split; [destruct e |]; eexists; eexists; reflexivity.
Qed.

Lemma only_unwrap_value_expect_fail_witness :
  returns (map (InstSome 1 (PyInt 5)) succ_fn) (State 2 []) /\
  returns (unwrap_or_else NONE (const_fn (PyStr "other"))) (State 2 []) /\
  returns (unwrap_or_else (InstErr 2 (PyExc (MkExn 1 ValueError [])))
             (const_fn (PyStr "b"))) (State 3 []) /\
  returns (map_error (InstErr 2 (PyExc (MkExn 1 TypeError []))) to_name_error)
    (State 3 []).
Proof.
  pose proof (only_unwrap_value_expect_fail 1 (PyInt 5) PyNone PyNone PyNone
                (PyStr "m") succ_fn (State 2 [])) as HS.
  pose proof (only_unwrap_value_expect_fail 0 PyNone PyNone PyNone PyNone
                (PyStr "m") (const_fn (PyStr "other")) (State 2 [])) as HN.
  pose proof (only_unwrap_value_expect_fail 2 PyNone
                (PyExc (MkExn 1 ValueError [])) PyNone PyNone
                (PyStr "m") (const_fn (PyStr "b")) (State 3 [])) as HE.
  pose proof (only_unwrap_value_expect_fail 2 PyNone
                (PyExc (MkExn 1 TypeError [])) PyNone PyNone
                (PyStr "m") to_name_error (State 3 [])) as HM.
  split; [| split; [| split]].
  - apply (proj2 (proj2 (proj2 (proj2 (proj2 (proj2 (proj1 (proj2 HS)))))))).
    eexists. eexists. reflexivity.
  - apply (proj2 (proj2 (proj2 (proj2 (proj2 (proj2 (proj1 HN))))))).
    eexists. eexists. reflexivity.
  - apply (proj1 (proj2 (proj2 (proj2 (proj2 (proj2 (proj2 (proj2
             (proj1 (proj2 (proj2 (proj2 HE)))))))))))).
    eexists. eexists. reflexivity.
  - apply (proj2 (proj2 (proj2 (proj2 (proj2 (proj2 (proj2 (proj2
             (proj1 (proj2 (proj2 (proj2 HM)))))))))))).
    eexists. eexists. reflexivity.
Defined.

(** A failure of the supplied callable is the only way the combinators
    fail: it leaves [map], [unwrap_or_else] and [map_error] unchanged. *)
Lemma callable_failure_passes_through (o : nat) (v : val) (op : callable)
  (s : state) :
  (forall x s', call op [v] [] s = (Raise x, s') ->
     map (InstSome o v) op s = (Raise x, s') /\
     unwrap_or_else (InstErr o v) op s = (Raise x, s')) /\
  (forall x s', call op [] [] s = (Raise x, s') ->
     unwrap_or_else (Inst_NONE o) op s = (Raise x, s')).
Proof.
  split.
  - intros x s' H. split; [| exact H].
    change (bind (call op [v] []) Some_new s = (Raise x, s')).
    apply (bind_raise _ _ _ _ _ H).
  - intros x s' H. exact H.
Qed.

(** ** Further properties of the two wrapper types *)

(** *** Variant queries *)

(** X1. On an [Option], [is_some] and [is_none] answer with opposite
    booleans, [is_some] being true exactly on a [Some]; on a [Result],
    [is_ok] and [is_err] likewise, [is_ok] being true exactly on an [Ok].
    None of them touches the state. *)
Theorem variant_queries_exclusive :
  forall (self : val) (s : state),
    (isinstance_Option self = true ->
       is_some self s = (Return (PyBool (isinstance_Some self)), s) /\
       is_none self s = (Return (PyBool (negb (isinstance_Some self))), s)) /\
    (isinstance_Result self = true ->
       is_ok self s = (Return (PyBool (isinstance_Ok self)), s) /\
       is_err self s = (Return (PyBool (negb (isinstance_Ok self))), s)).
Proof.
  intros self s. split; intros H; destruct self; try discriminate H;
    split; reflexivity.
Qed.

Lemma variant_queries_exclusive_witness :
  (is_some NONE imported_state = (Return (PyBool false), imported_state) /\
   is_none NONE imported_state = (Return (PyBool true), imported_state)) /\
  (is_ok (InstErr 2 (PyExc (MkExn 1 TypeError []))) (State 3 [])
     = (Return (PyBool false), State 3 []) /\
   is_err (InstErr 2 (PyExc (MkExn 1 TypeError []))) (State 3 [])
     = (Return (PyBool true), State 3 [])).
Proof.
  split.
  - apply (proj1 (variant_queries_exclusive NONE imported_state) eq_refl).
  - apply (proj2 (variant_queries_exclusive
                    (InstErr 2 (PyExc (MkExn 1 TypeError []))) (State 3 []))
             eq_refl).
Defined.

(** *** Defaults *)



(** X3. [unwrap_or_else(op)] is lazy.  When [unwrap] returns, it returns
    the same value and [op] is not called, whatever [op] is; on a [_NONE] it
    is the call of [op] with no argument, and on an [Err] the call of [op]
    on the held error. *)
Theorem unwrap_or_else_lazy :
  forall (self : val) (op : callable) (s : state),
    is_wrapper self = true ->
    (forall v s', unwrap self s = (Return v, s') ->
       unwrap_or_else self op s = (Return v, s)) /\
    (isinstance__NONE self = true ->
       unwrap_or_else self op s = call op [] [] s) /\
    (forall o e, self = InstErr o e ->
       unwrap_or_else self op s = call op [e] [] s).
Proof.
  intros self op s Hw. destruct self; try discriminate Hw.
  - split; [| split].
    + intros v s' H. discriminate H.
    + intros _. reflexivity.
    + intros o' e' H. discriminate H.
  - split; [| split].
    + intros v s' H. injection H as <- _. reflexivity.
    + intros H. discriminate H.
    + intros o' e' H. discriminate H.
  - split; [| split].
    + intros v s' H. injection H as <- _. reflexivity.
    + intros H. discriminate H.
    + intros o' e' H. discriminate H.
  - split; [| split].
    + intros v s' H. exfalso.
      change (bind (ret self) py_raise s = (Return v, s')) in H.
      unfold bind, ret in H. destruct self; discriminate H.
    + intros H. discriminate H.
    + intros o' e' H. injection H as _ <-. reflexivity.
Qed.

Lemma unwrap_or_else_lazy_witness :
  unwrap_or_else (InstOk 1 (PyStr "a")) always_fails (State 2 [])
    = (Return (PyStr "a"), State 2 []) /\
  unwrap_or_else NONE (const_fn (PyStr "other")) (State 2 [])
    = call (const_fn (PyStr "other")) [] [] (State 2 []) /\
  unwrap_or_else (InstErr 2 (PyExc (MkExn 1 ValueError []))) (const_fn (PyStr "b"))
      (State 3 [])
    = call (const_fn (PyStr "b")) [PyExc (MkExn 1 ValueError [])] [] (State 3 []).
Proof.
  split; [| split].
  - apply (proj1 (unwrap_or_else_lazy (InstOk 1 (PyStr "a")) always_fails
                    (State 2 []) eq_refl) (PyStr "a") (State 2 [])).
    reflexivity.
  - apply (proj1 (proj2 (unwrap_or_else_lazy NONE (const_fn (PyStr "other"))
                           (State 2 []) eq_refl))).
    reflexivity.
  - apply (proj2 (proj2 (unwrap_or_else_lazy
                           (InstErr 2 (PyExc (MkExn 1 ValueError [])))
                           (const_fn (PyStr "b")) (State 3 []) eq_refl))
             2 (PyExc (MkExn 1 ValueError []))).
    reflexivity.
Defined.

(** X4. [expect(msg)] returns exactly when [unwrap] returns, with the same
    value and the state untouched, and raises exactly when [unwrap] raises. *)
Theorem expect_agrees_with_unwrap :
  forall (self msg : val) (s : state),
    is_wrapper self = true ->
    (forall v s', unwrap self s = (Return v, s') <->
                  expect self msg s = (Return v, s')) /\
    (raises (unwrap self) s <-> raises (expect self msg) s).
Proof.
  intros self msg s Hw. destruct self; try discriminate Hw; split.
  - intros v s'. split; intros H; discriminate H.
  - split; intros _; eexists; eexists; reflexivity.
  - intros v s'. split; intros H; exact H.
  - split; intros H; exact H.
  - intros v s'. split; intros H; exact H.
  - split; intros H; exact H.
  - intros v s'. split; intros H; [| discriminate H].
    exfalso. change (bind (ret self) py_raise s = (Return v, s')) in H.
    unfold bind, ret in H. destruct self; discriminate H.
  - split; intros _; [| destruct self]; eexists; eexists; reflexivity.
Qed.

Lemma expect_agrees_with_unwrap_witness :
  expect (InstSome 1 (PyStr "some")) (PyStr "other error") (State 2 [])
    = (Return (PyStr "some"), State 2 []) /\
  raises (expect NONE (PyStr "other error")) (State 2 []).
Proof.
  split.
  - apply (proj1 (proj1 (expect_agrees_with_unwrap (InstSome 1 (PyStr "some"))
                           (PyStr "other error") (State 2 []) eq_refl)
                    (PyStr "some") (State 2 []))).
    reflexivity.
  - apply (proj1 (proj2 (expect_agrees_with_unwrap NONE (PyStr "other error")
                           (State 2 []) eq_refl))).
    eexists. eexists. reflexivity.
Defined.

(** *** Conversions between the two types *)

(** X5. [ok()] and [err()] of a [Result] always return an [Option], and
    exactly one of the two is a [Some]: [ok()] is a [Some] exactly on an
    [Ok], and [err()] exactly on an [Err]. *)
Theorem ok_err_partition :
  forall (self : val) (s : state),
    isinstance_Result self = true ->
    exists x y s1 s2,
      ok self s = (Return x, s1) /\ err self s = (Return y, s2) /\
      isinstance_Option x = true /\ isinstance_Option y = true /\
      isinstance_Some x = isinstance_Ok self /\
      isinstance_Some y = isinstance_Err self /\
      isinstance_Some x = negb (isinstance_Some y).
Proof.
  intros self s H. destruct self; try discriminate H.
  - exists (InstSome (next_oid s) self), NONE, (allocated s), s. repeat split.
  - exists NONE, (InstSome (next_oid s) self), s, (allocated s). repeat split.
Qed.

Lemma ok_err_partition_witness :
  exists x y s1 s2,
    ok (InstOk 1 (PyStr "a")) (State 2 []) = (Return x, s1) /\
    err (InstOk 1 (PyStr "a")) (State 2 []) = (Return y, s2) /\
    isinstance_Option x = true /\ isinstance_Option y = true /\
    isinstance_Some x = true /\ isinstance_Some y = false /\
    isinstance_Some x = negb (isinstance_Some y).
Proof.
  apply (ok_err_partition (InstOk 1 (PyStr "a")) (State 2 []) eq_refl).
Defined.

(** X6. Unwrapping a conversion gives the payload back: [Ok(v).ok().unwrap()]
    returns [v], and [Err(e).err().unwrap()] returns [e] instead of raising
    it, whatever [e] is; the two cross conversions end in [NONE], whose
    [unwrap] raises [ValueError]. *)
Theorem conversion_then_unwrap :
  forall (o : nat) (v : val) (s : state),
    bind (ok (InstOk o v)) unwrap s = (Return v, allocated s) /\
    bind (err (InstErr o v)) unwrap s = (Return v, allocated s) /\
    (exists e, bind (ok (InstErr o v)) unwrap s = (Raise e, allocated s) /\
               exn_cls e = ValueError) /\
    (exists e, bind (err (InstOk o v)) unwrap s = (Raise e, allocated s) /\
               exn_cls e = ValueError).
Proof.
  intros o v s. split; [reflexivity | split; [reflexivity | split]];
    eexists; split; reflexivity.
Qed.

(** X7. The property [value] is [unwrap] on an [Option]; a [Result] has no
    such attribute, and reading it raises [AttributeError]. *)
Theorem value_is_unwrap_on_Option_only :
  forall (self : val) (s : state),
    (isinstance_Option self = true -> value self s = unwrap self s) /\
    (isinstance_Result self = true ->
       exists e s', value self s = (Raise e, s') /\ exn_cls e = AttributeError).
Proof.
  intros self s. split; intros H; destruct self; try discriminate H;
    try reflexivity; eexists; eexists; split; reflexivity.
Qed.

Lemma value_is_unwrap_on_Option_only_witness :
  value (InstSome 1 (PyStr "some")) (State 2 [])
    = unwrap (InstSome 1 (PyStr "some")) (State 2 []) /\
  exists e s', value (InstOk 1 (PyStr "a")) (State 2 []) = (Raise e, s') /\
               exn_cls e = AttributeError.
Proof.
  split.
  - apply (proj1 (value_is_unwrap_on_Option_only (InstSome 1 (PyStr "some"))
                    (State 2 [])) eq_refl).
  - apply (proj2 (value_is_unwrap_on_Option_only (InstOk 1 (PyStr "a"))
                    (State 2 [])) eq_refl).
Defined.

(** X8. [Err.unwrap] hands its payload to [raise]: when the payload is not
    an exception instance the exception in flight is a new [TypeError], and
    the payload is not raised. *)
Theorem unwrap_Err_of_non_exception :
  forall (o : nat) (x : val) (s : state),
    (forall e, x <> PyExc e) ->
    exists e,
      unwrap (InstErr o x) s = (Raise e, allocated s) /\
      exn_cls e = TypeError /\ exn_oid e = next_oid s.
Proof.
  intros o x s Hx.
  destruct x; try (eexists; repeat split; reflexivity).
  exfalso. apply (Hx e). reflexivity.
Qed.

Lemma unwrap_Err_of_non_exception_witness :
  exists e,
    unwrap (InstErr 1 (PyStr "boom")) (State 2 []) = (Raise e, State 3 []) /\
    exn_cls e = TypeError /\ exn_oid e = 2.
Proof.
  apply (unwrap_Err_of_non_exception 1 (PyStr "boom") (State 2 [])).
  intros e. discriminate.
Defined.

(** *** Equality *)

Lemma py_eq_sym (a b : val) : py_eq a b = py_eq b a.
Proof.
  revert b.
  induction a as [| x | n | t | e | o | o v IH | o v IH | o v IH];
    intros [| y | m | u | e' | o' | o' w | o' w | o' w]; simpl;
    try reflexivity; try apply IH;
    try apply Z.eqb_sym; try apply String.eqb_sym; try apply Nat.eqb_sym.
  destruct x, y; reflexivity.
Qed.

Lemma b2z_inj (x y : bool) : Z.b2z x = Z.b2z y -> x = y.
Proof. destruct x, y; simpl; intros H; try reflexivity; discriminate H. Qed.

Lemma py_eq_trans (a b c : val) :
  py_eq a b = true -> py_eq b c = true -> py_eq a c = true.
Proof.
  revert b c.
  induction a as [| x | n | t | e | o | o v IH | o v IH | o v IH];
    intros [| y | m | u | e' | o' | o' w | o' w | o' w] c Hab;
    simpl in Hab; try discriminate Hab;
    destruct c as [| z | k | r | e'' | o'' | o'' q | o'' q | o'' q];
    intros Hbc; simpl in Hbc; try discriminate Hbc; simpl;
    try reflexivity;
    try (eapply IH; eassumption);
    repeat match goal with
           | H : Bool.eqb _ _ = true |- _ => apply Bool.eqb_prop in H
           | H : Z.eqb _ _ = true |- _ => apply Z.eqb_eq in H
           | H : String.eqb _ _ = true |- _ => apply String.eqb_eq in H
           | H : Nat.eqb _ _ = true |- _ => apply Nat.eqb_eq in H
           end;
    subst;
    try apply Bool.eqb_reflx; try apply Z.eqb_refl;
    try apply String.eqb_refl; try apply Nat.eqb_refl.
  - apply b2z_inj in Hbc. subst. apply Bool.eqb_reflx.
  - rewrite Hab, Hbc. apply Nat.eqb_refl.
Qed.

(** X9. [==] is an equivalence on the modelled values, wrappers included:
    every value equals itself, the two orders of the operands give the same
    answer, and equality is transitive. *)
Theorem equality_is_equivalence :
  forall (a b c : val) (s : state),
    eq_ a a s = (Return (PyBool true), s) /\
    (exists r, eq_ a b s = (Return (PyBool r), s) /\
               eq_ b a s = (Return (PyBool r), s)) /\
    (eq_ a b s = (Return (PyBool true), s) ->
     eq_ b c s = (Return (PyBool true), s) ->
     eq_ a c s = (Return (PyBool true), s)).
Proof.
  intros a b c s. rewrite !eq__is_py_eq. split; [| split].
  - rewrite py_eq_refl. reflexivity.
  - exists (py_eq a b). rewrite (py_eq_sym b a). split; reflexivity.
  - intros Hab Hbc. injection Hab as Hab. injection Hbc as Hbc.
    rewrite (py_eq_trans a b c Hab Hbc). reflexivity.
Qed.

Lemma equality_is_equivalence_witness :
  eq_ (InstSome 1 (PyBool true)) (InstSome 3 (PyBool true)) (State 4 [])
    = (Return (PyBool true), State 4 []).
Proof.
  apply (proj2 (proj2 (equality_is_equivalence (InstSome 1 (PyBool true))
                         (InstSome 2 (PyInt 1)) (InstSome 3 (PyBool true))
                         (State 4 []))));
    reflexivity.
Defined.

(** *** Chains of combinators *)

Lemma map_Some_run (o : nat) (v : val) (f : callable) (s : state) :
  map (InstSome o v) f s = bind (call f [v] []) Some_new s.
Proof. reflexivity. Qed.

Lemma map_error_Err_run (o : nat) (e : val) (g : callable) (s : state) :
  map_error (InstErr o e) g s
    = bind (call g [InstSome (next_oid s) e] []) Err_new (allocated s).
Proof. reflexivity. Qed.

(** X11. Two [map] in a row on a [Some] run the two callables in order,
    the second on the result of the first, and end in a [Some] holding the
    last result; when the first callable raises, the second is not called;
    on a [_NONE] neither is called and the result is [NONE]. *)
Theorem map_chain :
  forall (o : nat) (v : val) (f g : callable) (s : state),
    (forall r1 s1 r2 s2,
       call f [v] [] s = (Return r1, s1) ->
       call g [r1] [] (allocated s1) = (Return r2, s2) ->
       bind (map (InstSome o v) f) (fun x => map x g) s
         = (Return (InstSome (next_oid s2) r2), allocated s2)) /\
    (forall e s1,
       call f [v] [] s = (Raise e, s1) ->
       bind (map (InstSome o v) f) (fun x => map x g) s = (Raise e, s1)) /\
    bind (map (Inst_NONE o) f) (fun x => map x g) s = (Return NONE, s).
Proof.
  intros o v f g s. split; [| split; [| reflexivity]].
  - intros r1 s1 r2 s2 Hf Hg.
    assert (E1 : map (InstSome o v) f s
                 = (Return (InstSome (next_oid s1) r1), allocated s1)).
    { rewrite map_Some_run, (bind_return _ _ _ _ _ Hf). reflexivity. }
    rewrite (bind_return _ _ _ _ _ E1), map_Some_run.
    rewrite (bind_return _ _ _ _ _ Hg). reflexivity.
  - intros e s1 Hf.
    apply bind_raise. rewrite map_Some_run. apply (bind_raise _ _ _ _ _ Hf).
Qed.

Lemma map_chain_witness :
  bind (map (InstSome 1 (PyInt 5)) succ_fn) (fun x => map x succ_fn) (State 2 [])
    = (Return (InstSome 3 (PyInt 7)),
       State 4 [Called "<lambda>" [PyInt 5] []; Called "<lambda>" [PyInt 6] []]) /\
  bind (map (InstSome 1 (PyInt 5)) always_fails) (fun x => map x succ_fn) (State 2 [])
    = (Raise (MkExn 2 ValueError [PyStr "boom"]),
       State 3 [Called "always_fails" [PyInt 5] []]).
Proof.
  split.
  - apply (proj1 (map_chain 1 (PyInt 5) succ_fn succ_fn (State 2 []))
             (PyInt 6) (State 2 [Called "<lambda>" [PyInt 5] []])
             (PyInt 7)
             (State 3 [Called "<lambda>" [PyInt 5] []; Called "<lambda>" [PyInt 6] []]));
      reflexivity.
  - apply (proj1 (proj2 (map_chain 1 (PyInt 5) always_fails succ_fn (State 2 [])))
             (MkExn 2 ValueError [PyStr "boom"])
             (State 3 [Called "always_fails" [PyInt 5] []])).
    reflexivity.
Defined.

(** X12. [map] with the identity function returns a new [Some], equal to
    the receiver and, for a receiver that already exists, not the receiver
    itself; [map_error] with the transform that unwraps its argument returns
    a new [Err] holding the original error, equal to the receiver. *)
Theorem identity_transforms :
  forall (o : nat) (v : val) (s : state),
    o < next_oid s ->
    (map (InstSome o v) id_fn s
       = (Return (InstSome (next_oid s) v),
          State (S (next_oid s)) (calls s ++ [Called "<lambda>" [v] []])) /\
     py_eq (InstSome (next_oid s) v) (InstSome o v) = true /\
     py_is (InstSome (next_oid s) v) (InstSome o v) = false) /\
    (map_error (InstErr o v) unwrap_fn s
       = (Return (InstErr (S (next_oid s)) v),
          State (S (S (next_oid s)))
            (calls s ++ [Called "<lambda>" [InstSome (next_oid s) v] []])) /\
     py_eq (InstErr (S (next_oid s)) v) (InstErr o v) = true /\
     py_is (InstErr (S (next_oid s)) v) (InstErr o v) = false).
Proof.
  intros o v s Ho. split; (split; [reflexivity | split]).
  - simpl. apply py_eq_refl.
  - change (Nat.eqb (next_oid s) o = false). apply Nat.eqb_neq. lia.
  - simpl. apply py_eq_refl.
  - change (Nat.eqb (S (next_oid s)) o = false). apply Nat.eqb_neq. lia.
Qed.

Lemma identity_transforms_witness :
  map (InstSome 1 (PyInt 5)) id_fn (State 2 [])
    = (Return (InstSome 2 (PyInt 5)), State 3 [Called "<lambda>" [PyInt 5] []]) /\
  map_error (InstErr 1 (PyInt 5)) unwrap_fn (State 2 [])
    = (Return (InstErr 3 (PyInt 5)),
       State 4 [Called "<lambda>" [InstSome 2 (PyInt 5)] []]).
Proof.
  pose proof (identity_transforms 1 (PyInt 5) (State 2 []) ltac:(simpl; lia)) as H.
  split.
  - exact (proj1 (proj1 H)).
  - exact (proj1 (proj2 H)).
Defined.

(** X13. After [map_error], [unwrap] raises what the transform returned:
    when [g] returns an exception for [Err(e)], [unwrap] of the result raises
    that exception and not [e]; for [Ok(v)], [unwrap] of the result returns
    [v] and [g] is not called. *)
Theorem map_error_then_unwrap :
  forall (o : nat) (v e : val) (g : callable) (s : state),
    (forall x s',
       call g [InstSome (next_oid s) e] [] (allocated s) = (Return (PyExc x), s') ->
       bind (map_error (InstErr o e) g) unwrap s = (Raise x, allocated s')) /\
    bind (map_error (InstOk o v) g) unwrap s = (Return v, s).
Proof.
  intros o v e g s. split; [| reflexivity].
  intros x s' Hg.
  assert (E : map_error (InstErr o e) g s
              = (Return (InstErr (next_oid s') (PyExc x)), allocated s')).
  { rewrite map_error_Err_run, (bind_return _ _ _ _ _ Hg). reflexivity. }
  rewrite (bind_return _ _ _ _ _ E). reflexivity.
Qed.

Lemma map_error_then_unwrap_witness :
  bind (map_error (InstErr 5 (PyExc (MkExn 4 TypeError []))) to_name_error) unwrap
       (State 6 [])
    = (Raise (MkExn 7 NameError []),
       State 9 [Called "<lambda>" [InstSome 6 (PyExc (MkExn 4 TypeError []))] []]).
Proof.
  apply (proj1 (map_error_then_unwrap 5 PyNone (PyExc (MkExn 4 TypeError []))
                  to_name_error (State 6 []))
           (MkExn 7 NameError [])
           (State 8 [Called "<lambda>" [InstSome 6 (PyExc (MkExn 4 TypeError []))] []])).
  reflexivity.
Defined.

(** *** The adapters, end to end *)

Lemma as_result_raises_cases (exceptions : list exn_class) (f : callable)
  args kwargs s e s' :
  call f args kwargs s = (Raise e, s') ->
  (fn_body (as_result exceptions f) args kwargs s
     = (Return (InstErr (next_oid s') (PyExc e)), allocated s') /\
   ((exceptions <> [] /\ exc_matches e exceptions = true) \/
    (exceptions = [] /\ issubclass (exn_cls e) Exception = true))) \/
  fn_body (as_result exceptions f) args kwargs s = (Raise e, s').
Proof.
  intros Hf. destruct exceptions as [| c l].
  - rewrite as_result_default.
    rewrite (as_result_raises [Exception] f args kwargs s e s'
               ltac:(discriminate) Hf).
    rewrite exc_matches_Exception.
    destruct (issubclass (exn_cls e) Exception) eqn:E;
      [left; split; [reflexivity | right; split; reflexivity] | right; reflexivity].
  - rewrite (as_result_raises (c :: l) f args kwargs s e s'
               ltac:(discriminate) Hf).
    destruct (exc_matches e (c :: l)) eqn:E;
      [left; split; [reflexivity | left; split; [discriminate | reflexivity]]
      | right; reflexivity].
Qed.

(** X14. Unwrapping what the [as_result] wrapper returns undoes the
    wrapping: for every tuple of classes, the wrapper followed by [unwrap]
    ends as the call of [f] ends, returning the value [f] returned or raising
    the very exception [f] raised, caught or not.  The call log is the one
    [f] left, and at most one object has been allocated on top. *)
Theorem as_result_then_unwrap_is_transparent :
  forall (exceptions : list exn_class) (f : callable)
         (args : list val) (kwargs : list (string * val)) (s : state),
    exists s'',
      bind (fn_body (as_result exceptions f) args kwargs) unwrap s
        = (fst (call f args kwargs s), s'') /\
      calls s'' = calls (snd (call f args kwargs s)) /\
      (s'' = snd (call f args kwargs s) \/
       s'' = allocated (snd (call f args kwargs s))).
Proof.
  intros exceptions f args kwargs s.
  destruct (call f args kwargs s) as [[r | e] s'] eqn:Hf; simpl.
  - exists (allocated s').
    rewrite (bind_return _ _ _ _ _ (as_result_returns exceptions _ _ _ _ _ _ Hf)).
    repeat split. right. reflexivity.
  - destruct (as_result_raises_cases exceptions f args kwargs s e s' Hf)
      as [[E _] | E].
    + exists (allocated s'). rewrite (bind_return _ _ _ _ _ E).
      repeat split. right. reflexivity.
    + exists s'. rewrite (bind_raise _ _ _ _ _ E).
      repeat split. left. reflexivity.
Qed.

(** X15. [unwrap_or(None)] undoes the [as_option] wrapper: the wrapper
    followed by [unwrap_or(None)] ends as the call of [f] ends, with the
    call log [f] left and at most one object allocated on top. *)
Theorem as_option_then_unwrap_or_None :
  forall (f : callable) (args : list val) (kwargs : list (string * val))
         (s : state),
    exists s'',
      bind (fn_body (as_option f) args kwargs) (fun x => unwrap_or x PyNone) s
        = (fst (call f args kwargs s), s'') /\
      calls s'' = calls (snd (call f args kwargs s)) /\
      (s'' = snd (call f args kwargs s) \/
       s'' = allocated (snd (call f args kwargs s))).
Proof.
  intros f args kwargs s.
  destruct (call f args kwargs s) as [[r | e] s'] eqn:Hf; simpl.
  - destruct (py_is r PyNone) eqn:Er.
    + exists s'. unfold bind at 1. simpl. rewrite (bind_return _ _ _ _ _ Hf), Er.
      apply py_is_None in Er. subst r. repeat split. left. reflexivity.
    + exists (allocated s'). unfold bind at 1. simpl.
      rewrite (bind_return _ _ _ _ _ Hf), Er.
      repeat split. right. reflexivity.
  - exists s'. rewrite (bind_raise _ _ _ _ _ (as_option_propagates _ _ _ _ _ _ Hf)).
    repeat split. left. reflexivity.
Qed.

(** X16. What the [as_option] wrapper returns is [NONE] or a new [Some]
    whose payload is not [None]: it never returns [Some(None)], and it
    returns [NONE] only when [f] returned [None]. *)
Theorem as_option_never_wraps_None :
  forall (f : callable) (args : list val) (kwargs : list (string * val))
         (s : state) (x : val) (s' : state),
    fn_body (as_option f) args kwargs s = (Return x, s') ->
    (x = NONE /\ call f args kwargs s = (Return PyNone, s')) \/
    (exists o v s1, x = InstSome o v /\ v <> PyNone /\
                    call f args kwargs s = (Return v, s1) /\
                    o = next_oid s1 /\ s' = allocated s1).
Proof.
  intros f args kwargs s x s' H.
  destruct (call f args kwargs s) as [[r | e] s1] eqn:Hf.
  - change (bind (call f args kwargs)
              (fun result => if py_is result PyNone then ret NONE else Some_new result) s
            = (Return x, s')) in H.
    rewrite (bind_return _ _ _ _ _ Hf) in H.
    destruct (py_is r PyNone) eqn:Er.
    + apply py_is_None in Er. subst r. injection H as <- <-.
      left. split; reflexivity.
    + injection H as <- <-. right.
      exists (next_oid s1), r, s1. repeat split.
      intros ->. discriminate Er.
  - rewrite (as_option_propagates _ _ _ _ _ _ Hf) in H. discriminate H.
Qed.

Lemma as_option_never_wraps_None_witness :
  (NONE = NONE /\
   call test_option_sample [PyStr "b"] [] imported_state
     = (Return PyNone, State 1 [Called "sample_function" [PyStr "b"] []])) \/
  (exists o v s1, NONE = InstSome o v /\ v <> PyNone /\
                  call test_option_sample [PyStr "b"] [] imported_state
                    = (Return v, s1) /\
                  o = next_oid s1 /\
                  State 1 [Called "sample_function" [PyStr "b"] []] = allocated s1).
Proof.
  apply (as_option_never_wraps_None test_option_sample [PyStr "b"] []
           imported_state NONE (State 1 [Called "sample_function" [PyStr "b"] []])).
  reflexivity.
Defined.

(** X17. What the [as_result] wrapper returns is a new [Ok] holding what
    [f] returned or a new [Err] holding the exception [f] raised, and that
    exception matches the tuple in force: the [Err] never holds anything but
    a caught exception instance. *)
Theorem as_result_returns_Ok_or_caught_Err :
  forall (exceptions : list exn_class) (f : callable)
         (args : list val) (kwargs : list (string * val))
         (s : state) (x : val) (s' : state),
    fn_body (as_result exceptions f) args kwargs s = (Return x, s') ->
    (exists v s1, x = InstOk (next_oid s1) v /\ s' = allocated s1 /\
                  call f args kwargs s = (Return v, s1)) \/
    (exists e s1, x = InstErr (next_oid s1) (PyExc e) /\ s' = allocated s1 /\
                  call f args kwargs s = (Raise e, s1) /\
                  ((exceptions <> [] /\ exc_matches e exceptions = true) \/
                   (exceptions = [] /\ issubclass (exn_cls e) Exception = true))).
Proof.
  intros exceptions f args kwargs s x s' H.
  destruct (call f args kwargs s) as [[r | e] s1] eqn:Hf.
  - rewrite (as_result_returns exceptions _ _ _ _ _ _ Hf) in H.
    injection H as <- <-. left. exists r, s1. repeat split.
  - destruct (as_result_raises_cases exceptions f args kwargs s e s1 Hf)
      as [[E Hm] | E]; rewrite E in H.
    + injection H as <- <-. right. exists e, s1. repeat split. exact Hm.
    + discriminate H.
Qed.

Lemma as_result_returns_Ok_or_caught_Err_witness :
  (exists v s1,
     InstErr 2 (PyExc (MkExn 1 NameError [])) = InstOk (next_oid s1) v /\
     State 3 [Called "alt_sample_function" [PyStr "b"] []] = allocated s1 /\
     call test_result_alt_sample [PyStr "b"] [] imported_state = (Return v, s1)) \/
  (exists e s1,
     InstErr 2 (PyExc (MkExn 1 NameError [])) = InstErr (next_oid s1) (PyExc e) /\
     State 3 [Called "alt_sample_function" [PyStr "b"] []] = allocated s1 /\
     call test_result_alt_sample [PyStr "b"] [] imported_state = (Raise e, s1) /\
     (([NameError] <> [] /\ exc_matches e [NameError] = true) \/
      ([NameError] = [] /\ issubclass (exn_cls e) Exception = true))).
Proof.
  apply (as_result_returns_Ok_or_caught_Err [NameError] test_result_alt_sample
           [PyStr "b"] [] imported_state).
  reflexivity.
Defined.

(** X18. With [BaseException] among the classes, the wrapper of
    [as_result] never ends with an exception in flight: whatever [f] does,
    the wrapper returns an [Ok] or an [Err]. *)
Theorem as_result_BaseException_catches_all :
  forall (exceptions : list exn_class) (f : callable)
         (args : list val) (kwargs : list (string * val)) (s : state),
    In BaseException exceptions ->
    exists x s',
      fn_body (as_result exceptions f) args kwargs s = (Return x, s') /\
      isinstance_Result x = true.
Proof.
  intros exceptions f args kwargs s Hin.
  assert (Hne : exceptions <> []) by (intros ->; exact Hin).
  destruct (call f args kwargs s) as [[r | e] s1] eqn:Hf.
  - exists (InstOk (next_oid s1) r), (allocated s1).
    split; [apply as_result_returns; exact Hf | reflexivity].
  - exists (InstErr (next_oid s1) (PyExc e)), (allocated s1).
    split; [| reflexivity].
    rewrite (as_result_raises _ _ _ _ _ _ _ Hne Hf).
    assert (Hm : exc_matches e exceptions = true).
    { apply exc_matches_spec. exists BaseException.
      split; [exact Hin | apply issubclass_BaseException]. }
    rewrite Hm. reflexivity.
Qed.

Lemma as_result_BaseException_catches_all_witness :
  exists x s',
    fn_body (as_result [NameError; BaseException] interrupted) [] [] imported_state
      = (Return x, s') /\
    isinstance_Result x = true.
Proof.
  apply (as_result_BaseException_catches_all [NameError; BaseException]
           interrupted [] [] imported_state).
  right. left. reflexivity.
Defined.

(** The classes above a class in its [mro] have their own [mro] inside it. *)
Lemma issubclass_In (c d : exn_class) :
  issubclass c d = true <-> In d (mro c).
Proof.
  unfold issubclass. rewrite existsb_exists. split.
  - intros (x & Hin & Hx). apply exn_class_eqb_eq in Hx. subst. exact Hin.
  - intros Hin. exists d. split; [exact Hin | apply exn_class_eqb_refl].
Qed.

Lemma mro_incl (c d : exn_class) : In d (mro c) -> incl (mro d) (mro c).
Proof.
  induction c; intros Hin;
    try (simpl in Hin;
         repeat (destruct Hin as [<- | Hin]; [intros x Hx; simpl in *; tauto |]);
         contradiction).
  destruct Hin as [<- | Hin].
  - apply incl_refl.
  - apply incl_tl. apply IHc. exact Hin.
Qed.

Lemma issubclass_trans (c d e : exn_class) :
  issubclass c d = true -> issubclass d e = true -> issubclass c e = true.
Proof.
  rewrite !issubclass_In. intros Hcd Hde. apply (mro_incl c d Hcd). exact Hde.
Qed.

(** X19. Catching follows inheritance: when the tuple given to
    [as_result] catches the exceptions of a class [c], it catches those of
    every class deriving from [c], directly or through other classes, built
    in or user defined. *)
Theorem as_result_catches_subclasses :
  forall (exceptions : list exn_class) (c : exn_class) (f : callable)
         (args : list val) (kwargs : list (string * val))
         (s : state) (e : exn) (s' : state),
    (exists d, In d exceptions /\ issubclass c d = true) ->
    issubclass (exn_cls e) c = true ->
    call f args kwargs s = (Raise e, s') ->
    fn_body (as_result exceptions f) args kwargs s
      = (Return (InstErr (next_oid s') (PyExc e)), allocated s').
Proof.
  intros exceptions c f args kwargs s e s' (d & Hin & Hcd) Hsub Hf.
  assert (Hne : exceptions <> []) by (intros ->; exact Hin).
  rewrite (as_result_raises _ _ _ _ _ _ _ Hne Hf).
  assert (Hm : exc_matches e exceptions = true).
  { apply exc_matches_spec. exists d.
    split; [exact Hin | apply (issubclass_trans _ c d Hsub Hcd)]. }
  rewrite Hm. reflexivity.
Qed.

Lemma as_result_catches_subclasses_witness :
  fn_body (as_result [LookupError] (raiser (UserException "Missing" KeyError)))
      [] [] imported_state
    = (Return (InstErr 2 (PyExc (MkExn 1 (UserException "Missing" KeyError) []))),
       State 3 [Called "raiser" [] []]).
Proof.
  apply (as_result_catches_subclasses [LookupError] KeyError
           (raiser (UserException "Missing" KeyError)) [] [] imported_state
           (MkExn 1 (UserException "Missing" KeyError) [])
           (State 2 [Called "raiser" [] []])).
  - exists LookupError. split; [left; reflexivity | reflexivity].
  - reflexivity.
  - reflexivity.
Defined.

(** *** Representation *)

(** X20. [repr] of a wrapper never raises, leaves the state untouched and
    tells the four classes apart: two wrappers with the same [repr] are of
    the same class.  It does not tell [NONE] from [None]: both print as
    the text [None], although they are unequal. *)
Theorem repr_identifies_variant :
  forall (a b : val) (o : nat) (s : state),
    is_wrapper a = true ->
    is_wrapper b = true ->
    (repr a s = repr b s -> py_type a = py_type b) /\
    repr (Inst_NONE o) s = repr PyNone s /\
    eq_ (Inst_NONE o) PyNone s = (Return (PyBool false), s).
Proof.
  intros a b o s Ha Hb. split; [| split; reflexivity].
  rewrite !repr_is_py_repr. intros H. injection H as H.
  destruct a; try discriminate Ha; destruct b; try discriminate Hb;
    simpl in H; try reflexivity; discriminate H.
Qed.

Lemma repr_identifies_variant_witness :
  py_type (InstOk 1 (PyStr "a")) = py_type (InstOk 2 (PyStr "a")) /\
  repr (Inst_NONE 0) (State 3 []) = repr PyNone (State 3 []) /\
  eq_ (Inst_NONE 0) PyNone (State 3 []) = (Return (PyBool false), State 3 []).
Proof.
  pose proof (repr_identifies_variant (InstOk 1 (PyStr "a")) (InstOk 2 (PyStr "a"))
                0 (State 3 []) eq_refl eq_refl) as H.
  split; [apply (proj1 H); reflexivity | exact (proj2 H)].
Defined.
